(** * SharpNeedle bootstrapper: [AdapterEntryPoint] and [StartCLR]

    A shallow embedding of
    [third_party/SharpNeedle/src/Bootstrapper/Bootstrapper.cpp].

    The bootstrapper is a straight-line chain of calls into the CLR hosting
    API.  The hosting API is not part of the program, so it appears here as
    a [Platform]: an arbitrary deterministic oracle that answers each call
    from the history of the calls made so far.  The program is written in a
    small monad that records every call together with its answer and that
    stops with a [Crash] where the C++ would dereference a null interface
    pointer or let [std::out_of_range] escape. *)

From Stdlib Require Import String Ascii.
From Stdlib Require Import ZArith NArith List Bool Lia.
Import ListNotations.

Set Implicit Arguments.

(** ** Machine data *)

Definition HRESULT := Z.
Definition BOOL := Z.
Definition DWORD := Z.
Definition S_OK : HRESULT := 0%Z.

(** An interface pointer is an address; [NULL] is address zero. *)
Definition pointer := Z.
Definition NULL : pointer := 0%Z.

(** [wchar_t] code units and [std::wstring]. *)
Definition wchar := N.
Definition wstring := list wchar.

(** The wide literal [L"..."] of an ASCII text. *)
Definition L (s : string) : wstring := map N_of_ascii (list_ascii_of_string s).

(** The three COM interfaces the bootstrapper holds pointers to. *)
Inductive iface := ICLRMetaHost | ICLRRuntimeInfo | ICLRRuntimeHost.

(** ** Calls into the hosting API

    One event per call, with the receiver, the arguments, and what came
    back: the [HRESULT] and the value left in the out-parameter. *)
Inductive event :=
| EvCLRCreateInstance (hr : HRESULT) (ppInterface : pointer)
| EvGetRuntime (self : pointer) (pwzVersion : wstring)
               (hr : HRESULT) (ppRuntime : pointer)
| EvIsLoadable (self : pointer) (hr : HRESULT) (pbLoadable : BOOL)
| EvGetInterface (self : pointer) (hr : HRESULT) (ppUnk : pointer)
| EvStart (self : pointer) (hr : HRESULT)
| EvExecuteInDefaultAppDomain (self : pointer)
    (pwzAssemblyPath pwzTypeName pwzMethodName pwzArgument : wstring)
    (hr : HRESULT) (pReturnValue : DWORD)
| EvRelease (i : iface) (self : pointer).

Definition history := list event.

(** The hosting API as seen from the bootstrapper.  Every answer may depend
    on everything that happened before in the process. *)
Record Platform := {
  on_CLRCreateInstance : history -> HRESULT * pointer;
  on_GetRuntime : pointer -> wstring -> history -> HRESULT * pointer;
  on_IsLoadable : pointer -> history -> HRESULT * BOOL;
  on_GetInterface : pointer -> history -> HRESULT * pointer;
  on_Start : pointer -> history -> HRESULT;
  on_ExecuteInDefaultAppDomain :
    pointer -> wstring -> wstring -> wstring -> wstring -> history ->
    HRESULT * DWORD
}.

(** ** The monad: history in, outcome and new events out *)

Inductive fault := NullDereference | OutOfRange.

Inductive outcome (A : Type) :=
| Ret (a : A)
| Crash (f : fault).
Arguments Crash {A} f.

Definition M (A : Type) := history -> outcome A * list event.

Definition ret {A} (a : A) : M A := fun _ => (Ret a, []).

Definition crash {A} (f : fault) : M A := fun _ => (Crash f, []).

Definition bind {A B} (m : M A) (k : A -> M B) : M B :=
  fun h =>
    match m h with
    | (Ret a, e1) =>
        match k a (h ++ e1) with
        | (o, e2) => (o, e1 ++ e2)
        end
    | (Crash f, e1) => (Crash f, e1)
    end.

Notation "x <- m ;; k" := (bind m (fun x => k))
  (at level 61, m at next level, right associativity).
Notation "' pat <- m ;; k" := (bind m (fun x => match x with pat => k end))
  (at level 61, pat pattern, m at next level, right associativity).

(** Perform one call: ask the oracle, log the event, hand back the answer. *)
Definition perform {A} (ask : history -> A) (log : A -> event) : M A :=
  fun h => let a := ask h in (Ret a, [log a]).

(** [p->method(...)]: a null receiver is a crash before anything is called. *)
Definition deref {A} (p : pointer) (m : M A) : M A :=
  if Z.eqb p NULL then crash NullDereference else m.

(** [std::vector::at]. *)
Definition at_ (v : list wstring) (i : nat) : M wstring :=
  match nth_error v i with
  | Some x => ret x
  | None => crash OutOfRange
  end.

(** ** The argument parser *)

(** Modelled from the spec: part of [split] below; whether an occurrence
    of the delimiter begins here. *)
Fixpoint starts_with (delimiter s : wstring) : bool :=
  match delimiter, s with
  | [], _ => true
  | _ :: _, [] => false
  | x :: d', y :: s' => N.eqb x y && starts_with d' s'
  end.

(** Modelled from the spec: part of [split] below, the left-to-right scan.
    [skip] counts the code units of the delimiter occurrence still to be
    passed over; [token] is the current field, reversed. *)
Fixpoint split_scan (delimiter : wstring) (skip : nat) (token s : wstring)
  : list wstring :=
  match s with
  | [] => [rev token]
  | c :: s' =>
      match skip with
      | S k => split_scan delimiter k token s'
      | O =>
          if starts_with delimiter s
          then rev token :: split_scan delimiter (length delimiter - 1) [] s'
          else split_scan delimiter 0 (c :: token) s'
      end
  end.

(** Modelled from the spec: [split], which [AdapterEntryPoint] calls and
    which is declared in Bootstrapper.h, a header that is not among the
    sources.  Section 4.1: "given one input string and a delimiter literal,
    produce an ordered sequence of substrings split on every occurrence of
    the delimiter, preserving order and including empty substrings where
    delimiters are adjacent or at string boundaries.  No trimming, no
    escaping, no validation of field contents."  The spec is silent on an
    empty delimiter; the only call passes [L"*"]. *)
Definition split (s delimiter : wstring) : list wstring :=
  match delimiter with
  | [] => [s]
  | _ :: _ => split_scan delimiter 0 [] s
  end.

(** ** The program *)

Section Bootstrapper.

Variable P : Platform.

Definition CLRCreateInstance : M (HRESULT * pointer) :=
  perform (on_CLRCreateInstance P)
          (fun r => EvCLRCreateInstance (fst r) (snd r)).

Definition GetRuntime (self : pointer) (pwzVersion : wstring)
  : M (HRESULT * pointer) :=
  deref self
    (perform (on_GetRuntime P self pwzVersion)
             (fun r => EvGetRuntime self pwzVersion (fst r) (snd r))).

Definition IsLoadable (self : pointer) : M (HRESULT * BOOL) :=
  deref self
    (perform (on_IsLoadable P self)
             (fun r => EvIsLoadable self (fst r) (snd r))).

Definition GetInterface (self : pointer) : M (HRESULT * pointer) :=
  deref self
    (perform (on_GetInterface P self)
             (fun r => EvGetInterface self (fst r) (snd r))).

Definition Start (self : pointer) : M HRESULT :=
  deref self (perform (on_Start P self) (fun hr => EvStart self hr)).

Definition ExecuteInDefaultAppDomain (self : pointer)
    (pwzAssemblyPath pwzTypeName pwzMethodName pwzArgument : wstring)
  : M (HRESULT * DWORD) :=
  deref self
    (perform
       (on_ExecuteInDefaultAppDomain P self pwzAssemblyPath pwzTypeName
                                     pwzMethodName pwzArgument)
       (fun r => EvExecuteInDefaultAppDomain self pwzAssemblyPath pwzTypeName
                   pwzMethodName pwzArgument (fst r) (snd r))).

(** [IUnknown::Release]; the returned count is dropped by every caller. *)
Definition Release (i : iface) (self : pointer) : M unit :=
  deref self (perform (fun _ => tt) (fun _ => EvRelease i self)).

(** [if (p) { p->Release(); p = NULL; }] *)
Definition release_if_set (i : iface) (p : pointer) : M unit :=
  if Z.eqb p NULL then ret tt else Release i p.

(** Lines 76-93, "Cleanup if failed": reached by falling out of the nested
    conditionals with whatever the three locals hold at that point. *)
Definition cleanup (pClrRuntimeHost pClrRuntimeInfo pClrMetaHost : pointer)
  : M pointer :=
  _ <- release_if_set ICLRRuntimeHost pClrRuntimeHost ;;
  _ <- release_if_set ICLRRuntimeInfo pClrRuntimeInfo ;;
  _ <- release_if_set ICLRMetaHost pClrMetaHost ;;
  ret NULL.

Definition StartCLR (dotNetVersion : wstring) : M pointer :=
  let pClrMetaHost := NULL in
  let pClrRuntimeInfo := NULL in
  let pClrRuntimeHost := NULL in
  '(hr, pClrMetaHost) <- CLRCreateInstance ;;
  if Z.eqb hr S_OK then
    '(hr, pClrRuntimeInfo) <- GetRuntime pClrMetaHost dotNetVersion ;;
    if Z.eqb hr S_OK then
      '(hr, fLoadable) <- IsLoadable pClrRuntimeInfo ;;
      if Z.eqb hr S_OK && negb (Z.eqb fLoadable 0) then
        '(hr, pClrRuntimeHost) <- GetInterface pClrRuntimeInfo ;;
        if Z.eqb hr S_OK then
          hr <- Start pClrRuntimeHost ;;
          ret pClrRuntimeHost
        else cleanup pClrRuntimeHost pClrRuntimeInfo pClrMetaHost
      else cleanup pClrRuntimeHost pClrRuntimeInfo pClrMetaHost
    else cleanup pClrRuntimeHost pClrRuntimeInfo pClrMetaHost
  else cleanup pClrRuntimeHost pClrRuntimeInfo pClrMetaHost.

Definition AdapterEntryPoint (adapterDllArg : wstring) : M unit :=
  let parts := split adapterDllArg (L "*") in
  if Nat.ltb (length parts) 4 then ret tt else
  managedDllLocation <- at_ parts 0 ;;
  managedDllClass <- at_ parts 1 ;;
  managedDllFunction <- at_ parts 2 ;;
  scubaDiverArg <- at_ parts 3 ;;
  pClr <- StartCLR (L "v4.0.30319") ;;
  if negb (Z.eqb pClr NULL) then
    '(hr, result) <- ExecuteInDefaultAppDomain pClr managedDllLocation
                       managedDllClass managedDllFunction scubaDiverArg ;;
    ret tt
  else ret tt.

End Bootstrapper.

(** The version tag at the one call site of [StartCLR] (line 26). *)
Definition dotNetVersion_requested : wstring := L "v4.0.30319".

(** ** Reading a history *)

(** Interface pointers handed to the program: every non-null value a call
    left in an out-parameter is a reference the caller now owns. *)
Definition acquired_by (e : event) : list (iface * pointer) :=
  match e with
  | EvCLRCreateInstance _ p =>
      if Z.eqb p NULL then [] else [(ICLRMetaHost, p)]
  | EvGetRuntime _ _ _ p =>
      if Z.eqb p NULL then [] else [(ICLRRuntimeInfo, p)]
  | EvGetInterface _ _ p =>
      if Z.eqb p NULL then [] else [(ICLRRuntimeHost, p)]
  | _ => []
  end.

Definition released_by (e : event) : list (iface * pointer) :=
  match e with
  | EvRelease i p => [(i, p)]
  | _ => []
  end.

Definition acquired (es : list event) : list (iface * pointer) :=
  flat_map acquired_by es.

Definition released (es : list event) : list (iface * pointer) :=
  flat_map released_by es.

Definition is_intermediate (i : iface) : bool :=
  match i with
  | ICLRMetaHost | ICLRRuntimeInfo => true
  | ICLRRuntimeHost => false
  end.

(** The four acquisition steps and what counts as their failure. *)
Definition step_failed (e : event) : bool :=
  match e with
  | EvCLRCreateInstance hr _ => negb (Z.eqb hr S_OK)
  | EvGetRuntime _ _ hr _ => negb (Z.eqb hr S_OK)
  | EvIsLoadable _ hr fLoadable => negb (Z.eqb hr S_OK) || Z.eqb fLoadable 0
  | EvGetInterface _ hr _ => negb (Z.eqb hr S_OK)
  | _ => false
  end.

Definition is_invocation (e : event) : bool :=
  match e with
  | EvExecuteInDefaultAppDomain _ _ _ _ _ _ _ => true
  | _ => false
  end.

Definition is_release (e : event) : bool :=
  match e with
  | EvRelease _ _ => true
  | _ => false
  end.

Definition requested_version (e : event) : list wstring :=
  match e with
  | EvGetRuntime _ v _ _ => [v]
  | _ => []
  end.

Definition requested_versions (es : list event) : list wstring :=
  flat_map requested_version es.

(** The one rule of COM the program leans on: a call that answers [S_OK]
    has stored a usable interface pointer. *)
Record well_behaved (P : Platform) : Prop := {
  wb_CLRCreateInstance : forall h,
    fst (on_CLRCreateInstance P h) = S_OK ->
    snd (on_CLRCreateInstance P h) <> NULL;
  wb_GetRuntime : forall p v h,
    fst (on_GetRuntime P p v h) = S_OK -> snd (on_GetRuntime P p v h) <> NULL;
  wb_GetInterface : forall p h,
    fst (on_GetInterface P p h) = S_OK -> snd (on_GetInterface P p h) <> NULL
}.

(** What the cleanup block emits for one local. *)
Definition release_events (i : iface) (p : pointer) : list event :=
  if Z.eqb p NULL then [] else [EvRelease i p].

(** The releases that undo a list of acquisitions, in the order given. *)
Definition release_each (l : list (iface * pointer)) : list event :=
  map (fun x => EvRelease (fst x) (snd x)) l.

Definition handle_eq_dec (x y : iface * pointer) : {x = y} + {x <> y}.
Proof. repeat decide equality. Defined.

(** The same platform with another managed payload behind
    [ExecuteInDefaultAppDomain]. *)
Definition with_payload (P : Platform)
    (payload : pointer -> wstring -> wstring -> wstring -> wstring ->
               history -> HRESULT * DWORD) : Platform :=
  {| on_CLRCreateInstance := on_CLRCreateInstance P;
     on_GetRuntime := on_GetRuntime P;
     on_IsLoadable := on_IsLoadable P;
     on_GetInterface := on_GetInterface P;
     on_Start := on_Start P;
     on_ExecuteInDefaultAppDomain := payload |}.

(** An invocation with what came back from it blanked out. *)
Definition forget_result (e : event) : event :=
  match e with
  | EvExecuteInDefaultAppDomain p a b c d _ _ =>
      EvExecuteInDefaultAppDomain p a b c d 0%Z 0%Z
  | _ => e
  end.

(** ** Reading a field list *)

Definition star : wchar := 42%N.

(** The inverse of splitting: the fields with the delimiter between them. *)
Fixpoint join (delimiter : wstring) (fields : list wstring) : wstring :=
  match fields with
  | [] => []
  | [f] => f
  | f :: rest => f ++ delimiter ++ join delimiter rest
  end.

(** Put one more code unit in front of the first field. *)
Definition extend (c : wchar) (fields : list wstring) : list wstring :=
  match fields with
  | f :: fs => (c :: f) :: fs
  | [] => []
  end.

(** ** Sample platforms *)

(** A machine on which each step answers as scripted. *)
Definition scripted (create runtime : HRESULT * pointer)
    (loadable : HRESULT * BOOL) (host : HRESULT * pointer) (start : HRESULT)
    (exec : HRESULT * DWORD) : Platform :=
  {| on_CLRCreateInstance := fun _ => create;
     on_GetRuntime := fun _ _ _ => runtime;
     on_IsLoadable := fun _ _ => loadable;
     on_GetInterface := fun _ _ => host;
     on_Start := fun _ _ => start;
     on_ExecuteInDefaultAppDomain := fun _ _ _ _ _ _ => exec |}.

Definition E_FAIL : HRESULT := (-2147467259)%Z.
Definition CLR_E_SHIM_RUNTIMELOAD : HRESULT := (-2146232576)%Z.

Definition healthy : Platform :=
  scripted (S_OK, 4096)%Z (S_OK, 8192)%Z (S_OK, 1)%Z (S_OK, 12288)%Z S_OK (S_OK, 7)%Z.

Definition no_metahost : Platform :=
  scripted (E_FAIL, NULL)%Z (S_OK, 8192)%Z (S_OK, 1)%Z (S_OK, 12288)%Z S_OK (S_OK, 7)%Z.

Definition version_missing : Platform :=
  scripted (S_OK, 4096)%Z (CLR_E_SHIM_RUNTIMELOAD, NULL)%Z (S_OK, 1)%Z (S_OK, 12288)%Z
           S_OK (S_OK, 7)%Z.

Definition not_loadable : Platform :=
  scripted (S_OK, 4096)%Z (S_OK, 8192)%Z (S_OK, 0)%Z (S_OK, 12288)%Z S_OK (S_OK, 7)%Z.

Definition no_host : Platform :=
  scripted (S_OK, 4096)%Z (S_OK, 8192)%Z (S_OK, 1)%Z (E_FAIL, NULL)%Z S_OK (S_OK, 7)%Z.

Definition start_fails : Platform :=
  scripted (S_OK, 4096)%Z (S_OK, 8192)%Z (S_OK, 1)%Z (S_OK, 12288)%Z E_FAIL (S_OK, 7)%Z.


(** ** More ways to read a history *)

(** A call that answered [S_OK] and left a null interface pointer. *)
Definition hands_null (e : event) : bool :=
  match e with
  | EvCLRCreateInstance hr p => Z.eqb hr S_OK && Z.eqb p NULL
  | EvGetRuntime _ _ hr p => Z.eqb hr S_OK && Z.eqb p NULL
  | EvGetInterface _ hr p => Z.eqb hr S_OK && Z.eqb p NULL
  | _ => false
  end.

Definition is_start (e : event) : bool :=
  match e with
  | EvStart _ _ => true
  | _ => false
  end.

(** A non-null pointer came back. *)
Definition host_ready (o : outcome pointer) : bool :=
  match o with
  | Ret p => negb (Z.eqb p NULL)
  | Crash _ => false
  end.

(** The interface pointers a caller holds while the calls go by: metahost,
    runtime info, runtime host; [NULL] for one not held. *)
Record held := { h_meta : pointer; h_info : pointer; h_host : pointer }.

Definition nothing_held : held :=
  {| h_meta := NULL; h_info := NULL; h_host := NULL |}.

Definition is_held (p current : pointer) : bool :=
  negb (Z.eqb p NULL) && Z.eqb p current.

(** Follow one event.  An acquisition call replaces the pointer held for
    its interface; a method call or a release is accepted only on the
    non-null pointer currently held for its interface; a release drops it.
    [None] once an event was not accepted. *)
Definition follow (st : option held) (e : event) : option held :=
  match st with
  | None => None
  | Some s =>
      match e with
      | EvCLRCreateInstance _ p =>
          Some {| h_meta := p; h_info := h_info s; h_host := h_host s |}
      | EvGetRuntime self _ _ p =>
          if is_held self (h_meta s)
          then Some {| h_meta := h_meta s; h_info := p; h_host := h_host s |}
          else None
      | EvIsLoadable self _ _ =>
          if is_held self (h_info s) then Some s else None
      | EvGetInterface self _ p =>
          if is_held self (h_info s)
          then Some {| h_meta := h_meta s; h_info := h_info s; h_host := p |}
          else None
      | EvStart self _ =>
          if is_held self (h_host s) then Some s else None
      | EvExecuteInDefaultAppDomain self _ _ _ _ _ _ =>
          if is_held self (h_host s) then Some s else None
      | EvRelease ICLRMetaHost self =>
          if is_held self (h_meta s)
          then Some {| h_meta := NULL; h_info := h_info s; h_host := h_host s |}
          else None
      | EvRelease ICLRRuntimeInfo self =>
          if is_held self (h_info s)
          then Some {| h_meta := h_meta s; h_info := NULL; h_host := h_host s |}
          else None
      | EvRelease ICLRRuntimeHost self =>
          if is_held self (h_host s)
          then Some {| h_meta := h_meta s; h_info := h_info s; h_host := NULL |}
          else None
      end
  end.

Definition follow_all (es : list event) (st : option held) : option held :=
  fold_left follow es st.

(** A platform off the contract: [CLRCreateInstance] answers [S_OK] and
    leaves no pointer. *)
Definition null_metahost : Platform :=
  scripted (S_OK, NULL)%Z (S_OK, 8192)%Z (S_OK, 1)%Z (S_OK, 12288)%Z S_OK
           (S_OK, 7)%Z.

(** ** The host process around the entry point *)

Section HostProcess.

Variable P : Platform.

(** The export called once per input, one call after the other, in one
    process: each call sees the history the earlier ones left. *)
Fixpoint repeated_calls (inputs : list wstring) : M unit :=
  match inputs with
  | [] => ret tt
  | adapterDllArg :: later =>
      _ <- AdapterEntryPoint P adapterDllArg ;;
      repeated_calls later
  end.

End HostProcess.

(** ** dllmain.cpp *)

(** The values the Windows headers give these names. *)
Definition TRUE : BOOL := 1%Z.
Definition DLL_PROCESS_DETACH : DWORD := 0%Z.
Definition DLL_PROCESS_ATTACH : DWORD := 1%Z.
Definition DLL_THREAD_ATTACH : DWORD := 2%Z.
Definition DLL_THREAD_DETACH : DWORD := 3%Z.

(** [DllMain]: the process id is read into a local that nothing uses; each
    case of the [switch] is a bare [break]; a reason outside the four cases
    leaves the [switch] at once. *)
Definition DllMain (GetCurrentProcessId : DWORD)
    (instance : pointer) (reason : DWORD) (reserved : pointer) : M BOOL :=
  let pid := GetCurrentProcessId in
  _ <- (if Z.eqb reason DLL_PROCESS_ATTACH then ret tt
        else if Z.eqb reason DLL_THREAD_ATTACH then ret tt
        else if Z.eqb reason DLL_THREAD_DETACH then ret tt
        else if Z.eqb reason DLL_PROCESS_DETACH then ret tt
        else ret tt) ;;
  ret TRUE.

(** The loader telling the module about a run of events, one [DllMain]
    call each; the answers are collected. *)
Fixpoint notifications (GetCurrentProcessId : DWORD)
    (instance reserved : pointer) (reasons : list DWORD) : M (list BOOL) :=
  match reasons with
  | [] => ret []
  | reason :: later =>
      ok <- DllMain GetCurrentProcessId instance reason reserved ;;
      oks <- notifications GetCurrentProcessId instance reserved later ;;
      ret (ok :: oks)
  end.

(** * Proofs *)

Unset Implicit Arguments.

(** ** The argument parser on the delimiter [L"*"] *)

Lemma L_star : L "*" = [star].
Proof. reflexivity. Qed.

Lemma split_scan_token s : forall token,
  split_scan [star] 0 token s =
  match split_scan [star] 0 [] s with
  | f :: fs => (rev token ++ f) :: fs
  | [] => []
  end.
Proof.
  induction s as [|c s IH]; intro token.
  - cbn. now rewrite app_nil_r.
  - cbn [split_scan starts_with length Nat.sub].
    destruct (N.eqb star c); cbn [andb].
    + cbn [rev]. now rewrite app_nil_r.
    + rewrite (IH (c :: token)), (IH [c]).
      destruct (split_scan [star] 0 [] s) as [|f fs]; [reflexivity|].
      cbn [rev app]. now rewrite <- app_assoc.
Qed.

(** The scan, read as a recursion on the input. *)
Lemma split_cons c s :
  split (c :: s) (L "*") =
  if N.eqb c star then [] :: split s (L "*") else extend c (split s (L "*")).
Proof.
  rewrite L_star. unfold split.
  cbn [split_scan starts_with length Nat.sub].
  rewrite N.eqb_sym.
  destruct (N.eqb c star); cbn [andb rev]; [reflexivity|].
  now rewrite split_scan_token.
Qed.

Lemma split_nonempty s : split s (L "*") <> [].
Proof.
  destruct s as [|c s]; [discriminate|].
  rewrite split_cons. destruct (N.eqb c star); [discriminate|].
  revert c. induction s as [|c' s IH]; intro c; [discriminate|].
  rewrite split_cons. destruct (N.eqb c' star); [discriminate|].
  specialize (IH c').
  destruct (extend c' (split s (L "*"))); [contradiction|discriminate].
Qed.

Lemma join_split s : join (L "*") (split s (L "*")) = s.
Proof.
  induction s as [|c s IH]; [reflexivity|].
  rewrite split_cons.
  pose proof (split_nonempty s) as Hne.
  destruct (N.eqb_spec c star) as [->|Hc].
  - destruct (split s (L "*")) as [|f fs]; [contradiction|].
    cbn [join app]. rewrite L_star. cbn [app]. now f_equal.
  - destruct (split s (L "*")) as [|f fs]; [contradiction|].
    cbn [extend]. destruct fs; cbn [join app] in *; now f_equal.
Qed.

Lemma split_fields_clean s : Forall (fun f => ~ In star f) (split s (L "*")).
Proof.
  induction s as [|c s IH].
  - repeat constructor. intros [].
  - rewrite split_cons. destruct (N.eqb_spec c star) as [->|Hc].
    + constructor; [intros []|exact IH].
    + destruct (split s (L "*")) as [|f fs]; [constructor|].
      inversion IH; subst. constructor; [|assumption].
      intros [E|E]; [congruence|contradiction].
Qed.

Lemma split_length s :
  length (split s (L "*")) = S (count_occ N.eq_dec s star).
Proof.
  induction s as [|c s IH]; [reflexivity|].
  rewrite split_cons. cbn [count_occ].
  destruct (N.eqb_spec c star) as [->|Hc].
  - destruct (N.eq_dec star star); [|contradiction].
    cbn [length]. now rewrite IH.
  - destruct (N.eq_dec c star); [contradiction|].
    rewrite <- IH. now destruct (split s (L "*")).
Qed.

Lemma split_clean_field f : ~ In star f -> split f (L "*") = [f].
Proof.
  induction f as [|c f IH]; intro Hf; [reflexivity|].
  rewrite split_cons. destruct (N.eqb_spec c star) as [->|Hc].
  - exfalso. apply Hf. now left.
  - rewrite IH; [reflexivity|]. intro. apply Hf. now right.
Qed.

Lemma split_field_then f s :
  ~ In star f -> split (f ++ star :: s) (L "*") = f :: split s (L "*").
Proof.
  induction f as [|c f IH]; intro Hf.
  - cbn [app]. rewrite split_cons. now rewrite N.eqb_refl.
  - cbn [app]. rewrite split_cons. destruct (N.eqb_spec c star) as [->|Hc].
    + exfalso. apply Hf. now left.
    + rewrite IH; [reflexivity|]. intro. apply Hf. now right.
Qed.

Lemma split_join fields :
  fields <> [] -> Forall (fun f => ~ In star f) fields ->
  split (join (L "*") fields) (L "*") = fields.
Proof.
  induction fields as [|f fs IH]; intros Hne Hclean; [contradiction|].
  inversion Hclean as [|? ? Hf Hfs]; subst.
  destruct fs as [|g fs].
  - cbn [join]. now apply split_clean_field.
  - change (join (L "*") (f :: g :: fs))
      with (f ++ L "*" ++ join (L "*") (g :: fs)).
    rewrite L_star at 1. cbn [app].
    rewrite split_field_then by assumption.
    rewrite IH; [reflexivity|discriminate|assumption].
Qed.

(** C5.  [split] with the delimiter [L"*"] cuts the input at every [*]:
    gluing the fields back together with [*] between them gives the input
    again (so the fields come in input order and nothing is trimmed), no
    field contains a [*], and there is one field more than there are [*]s
    (so adjacent delimiters and delimiters at either end give empty
    fields); conversely any non-empty list of [*]-free fields, empty ones
    included, is what [split] returns on their join.  On the two inputs of
    the specification it returns the four fields listed there. *)
Theorem split_on_every_delimiter :
  (forall s, join (L "*") (split s (L "*")) = s) /\
  (forall s, Forall (fun f => ~ In star f) (split s (L "*"))) /\
  (forall s, length (split s (L "*")) = S (count_occ N.eq_dec s star)) /\
  (forall fields, fields <> [] -> Forall (fun f => ~ In star f) fields ->
     split (join (L "*") fields) (L "*") = fields) /\
  split (L "C:\payload.dll*MyNamespace.MyType*Run*hello-world") (L "*") =
    [L "C:\payload.dll"; L "MyNamespace.MyType"; L "Run"; L "hello-world"] /\
  split (L "a**c*d") (L "*") = [L "a"; L ""; L "c"; L "d"].
Proof.
  split; [exact join_split|].
  split; [exact split_fields_clean|].
  split; [exact split_length|].
  split; [exact split_join|].
  split; reflexivity.
Qed.

(** More runs of the parser: delimiters at either end, the empty input. *)
Example split_at_the_boundaries :
  split (L "*a*") (L "*") = [L ""; L "a"; L ""] /\
  split (L "") (L "*") = [L ""] /\
  split (L "a*b*c*d*e") (L "*") = [L "a"; L "b"; L "c"; L "d"; L "e"].
Proof. repeat split. Qed.

(** ** Equations of the monad and of the cleanup block *)

Lemma bind_run {A B} (m : M A) (k : A -> M B) h a e1 :
  m h = (Ret a, e1) ->
  bind m k h = (fst (k a (h ++ e1)), e1 ++ snd (k a (h ++ e1))).
Proof.
  intro Hm. unfold bind. rewrite Hm. now destruct (k a (h ++ e1)).
Qed.

Lemma release_if_set_run i p h :
  release_if_set i p h = (Ret tt, release_events i p).
Proof.
  unfold release_if_set, release_events, Release, deref.
  destruct (Z.eqb p NULL); reflexivity.
Qed.

Lemma cleanup_run pHost pInfo pMeta h :
  cleanup pHost pInfo pMeta h =
  (Ret NULL,
   release_events ICLRRuntimeHost pHost ++
   release_events ICLRRuntimeInfo pInfo ++
   release_events ICLRMetaHost pMeta).
Proof.
  unfold cleanup.
  do 3 (erewrite bind_run by apply release_if_set_run).
  cbn [ret fst snd]. now rewrite app_nil_r.
Qed.

Lemma acquired_app a b : acquired (a ++ b) = acquired a ++ acquired b.
Proof. apply flat_map_app. Qed.

Lemma released_app a b : released (a ++ b) = released a ++ released b.
Proof. apply flat_map_app. Qed.

Lemma released_release_each l : released (release_each l) = l.
Proof.
  induction l as [|[i p] l IH]; [reflexivity|].
  unfold released, release_each in *. cbn. now f_equal.
Qed.

Lemma acquired_release_each l : acquired (release_each l) = [].
Proof. induction l as [|[i p] l IH]; cbn; auto. Qed.

(** ** Case analysis on one run of [StartCLR]

    Name each answer of the platform, split on each test the program
    makes, and let the monad compute in between. *)
Ltac name_answer :=
  match goal with
  | |- context [on_CLRCreateInstance ?P ?h] =>
      let E := fresh "Ecreate" in
      destruct (on_CLRCreateInstance P h) as [? ?] eqn:E
  | |- context [on_GetRuntime ?P ?p ?v ?h] =>
      let E := fresh "Eruntime" in
      destruct (on_GetRuntime P p v h) as [? ?] eqn:E
  | |- context [on_IsLoadable ?P ?p ?h] =>
      let E := fresh "Eloadable" in
      destruct (on_IsLoadable P p h) as [? ?] eqn:E
  | |- context [on_GetInterface ?P ?p ?h] =>
      let E := fresh "Ehost" in
      destruct (on_GetInterface P p h) as [? ?] eqn:E
  | |- context [on_Start ?P ?p ?h] =>
      let E := fresh "Estart" in
      remember (on_Start P p h) as hr_start eqn:E
  end.

Ltac split_test :=
  match goal with
  | |- context [Z.eqb ?a ?b] =>
      let E := fresh "Etest" in
      destruct (Z.eqb a b) eqn:E
  end.

Ltac StartCLR_cases :=
  unfold StartCLR, CLRCreateInstance, GetRuntime, IsLoadable, GetInterface,
    Start;
  repeat first
    [ rewrite cleanup_run
    | progress (unfold bind, perform, deref, ret, crash;
                cbn [fst snd andb negb app])
    | name_answer
    | split_test ].

Ltac use_tests :=
  repeat match goal with
  | H : Z.eqb ?a ?b = _ |- context [Z.eqb ?a ?b] => rewrite H
  end.

Ltac tests_to_facts :=
  repeat match goal with
  | H : Z.eqb _ _ = true |- _ => apply Z.eqb_eq in H
  | H : Z.eqb _ _ = false |- _ => apply Z.eqb_neq in H
  end.

(** A run in which a call answered [S_OK] and left a null pointer does not
    exist on a well-behaved platform. *)
Ltac against_contract W :=
  exfalso; tests_to_facts;
  match goal with
  | E : on_CLRCreateInstance _ ?h = _ |- _ =>
      generalize (wb_CLRCreateInstance W h); rewrite E;
      cbn [fst snd];
      let Hc := fresh in intro Hc; apply Hc; assumption
  | E : on_GetRuntime _ ?p ?v ?h = _ |- _ =>
      generalize (wb_GetRuntime W p v h); rewrite E;
      cbn [fst snd];
      let Hc := fresh in intro Hc; apply Hc; assumption
  | E : on_GetInterface _ ?p ?h = _ |- _ =>
      generalize (wb_GetInterface W p h); rewrite E;
      cbn [fst snd];
      let Hc := fresh in intro Hc; apply Hc; assumption
  end.

Ltac remaining_tests :=
  unfold release_events; use_tests;
  repeat match goal with
  | |- context [Z.eqb ?p NULL] => destruct (Z.eqb p NULL) eqn:?
  end.

Lemma scripted_well_behaved create runtime loadable host start exec :
  (fst create = S_OK -> snd create <> NULL) ->
  (fst runtime = S_OK -> snd runtime <> NULL) ->
  (fst host = S_OK -> snd host <> NULL) ->
  well_behaved (scripted create runtime loadable host start exec).
Proof. intros H1 H2 H3. constructor; intros; cbn in *; auto. Defined.

Lemma with_payload_well_behaved P payload :
  well_behaved P -> well_behaved (with_payload P payload).
Proof. intros [H1 H2 H3]. constructor; cbn; auto. Qed.

(** ** The runtime acquirer *)

(** C2.  On a platform that keeps the COM contract, [StartCLR] returns,
    and what it returns is decided by the answers of the platform to the
    four acquisition steps, asked in order: it is null when
    [CLRCreateInstance] answers something other than [S_OK]; when that
    succeeds and [GetRuntime], asked on the metahost for the given
    version, answers something other than [S_OK]; when those succeed and
    [IsLoadable], asked on the runtime info, answers something other than
    [S_OK] or reports false; and when those succeed and [GetInterface]
    answers something other than [S_OK].  When all four succeed it is the
    pointer [GetInterface] handed over, which is not null.  Read off the
    run itself: the result is null exactly when one of the steps the run
    made failed. *)
Theorem StartCLR_null_iff_step_failed P dotNetVersion h :
  well_behaved P ->
  let create := on_CLRCreateInstance P h in
  let h1 := h ++ [EvCLRCreateInstance (fst create) (snd create)] in
  let runtime := on_GetRuntime P (snd create) dotNetVersion h1 in
  let h2 :=
    h1 ++ [EvGetRuntime (snd create) dotNetVersion (fst runtime) (snd runtime)]
  in
  let loadable := on_IsLoadable P (snd runtime) h2 in
  let h3 :=
    h2 ++ [EvIsLoadable (snd runtime) (fst loadable) (snd loadable)] in
  let host := on_GetInterface P (snd runtime) h3 in
  (fst create <> S_OK ->
   fst (StartCLR P dotNetVersion h) = Ret NULL) /\
  (fst create = S_OK -> fst runtime <> S_OK ->
   fst (StartCLR P dotNetVersion h) = Ret NULL) /\
  (fst create = S_OK -> fst runtime = S_OK ->
   fst loadable <> S_OK \/ snd loadable = 0%Z ->
   fst (StartCLR P dotNetVersion h) = Ret NULL) /\
  (fst create = S_OK -> fst runtime = S_OK ->
   fst loadable = S_OK -> snd loadable <> 0%Z ->
   fst host <> S_OK ->
   fst (StartCLR P dotNetVersion h) = Ret NULL) /\
  (fst create = S_OK -> fst runtime = S_OK ->
   fst loadable = S_OK -> snd loadable <> 0%Z ->
   fst host = S_OK ->
   fst (StartCLR P dotNetVersion h) = Ret (snd host) /\ snd host <> NULL) /\
  exists pClr,
    fst (StartCLR P dotNetVersion h) = Ret pClr /\
    (existsb step_failed (snd (StartCLR P dotNetVersion h)) = true ->
     pClr = NULL) /\
    (existsb step_failed (snd (StartCLR P dotNetVersion h)) = false ->
     pClr <> NULL).
Proof.
  intro W. cbv zeta.
  assert (Hanswers :
    let create := on_CLRCreateInstance P h in
    let h1 := h ++ [EvCLRCreateInstance (fst create) (snd create)] in
    let runtime := on_GetRuntime P (snd create) dotNetVersion h1 in
    let h2 :=
      h1 ++
      [EvGetRuntime (snd create) dotNetVersion (fst runtime) (snd runtime)] in
    let loadable := on_IsLoadable P (snd runtime) h2 in
    let h3 :=
      h2 ++ [EvIsLoadable (snd runtime) (fst loadable) (snd loadable)] in
    let host := on_GetInterface P (snd runtime) h3 in
    fst (StartCLR P dotNetVersion h) =
    if Z.eqb (fst create) S_OK then
      if Z.eqb (fst runtime) S_OK then
        if Z.eqb (fst loadable) S_OK && negb (Z.eqb (snd loadable) 0) then
          if Z.eqb (fst host) S_OK then Ret (snd host) else Ret NULL
        else Ret NULL
      else Ret NULL
    else Ret NULL).
  { cbv zeta. StartCLR_cases; cbn [fst snd]; use_tests; cbn [andb negb];
      first [ reflexivity | congruence | against_contract W ]. }
  cbv zeta in Hanswers. rewrite Hanswers.
  repeat match goal with |- _ /\ _ => split end.
  - intro H1. now rewrite (proj2 (Z.eqb_neq _ _) H1).
  - intros H1 H2.
    now rewrite (proj2 (Z.eqb_eq _ _) H1), (proj2 (Z.eqb_neq _ _) H2).
  - intros H1 H2 H3.
    rewrite (proj2 (Z.eqb_eq _ _) H1), (proj2 (Z.eqb_eq _ _) H2).
    destruct H3 as [H3|H3].
    + now rewrite (proj2 (Z.eqb_neq _ _) H3).
    + rewrite H3. cbn. now rewrite andb_false_r.
  - intros H1 H2 H3 H4 H5.
    now rewrite (proj2 (Z.eqb_eq _ _) H1), (proj2 (Z.eqb_eq _ _) H2),
      (proj2 (Z.eqb_eq _ _) H3), (proj2 (Z.eqb_neq _ _) H4),
      (proj2 (Z.eqb_neq _ _) H5).
  - intros H1 H2 H3 H4 H5.
    rewrite (proj2 (Z.eqb_eq _ _) H1), (proj2 (Z.eqb_eq _ _) H2),
      (proj2 (Z.eqb_eq _ _) H3), (proj2 (Z.eqb_neq _ _) H4),
      (proj2 (Z.eqb_eq _ _) H5).
    split; [reflexivity|]. now apply (wb_GetInterface W).
  - rewrite <- Hanswers. clear Hanswers.
    StartCLR_cases;
      first
        [ against_contract W
        | eexists; split; [reflexivity|];
          remaining_tests; cbn; use_tests; cbn;
          split; intro; tests_to_facts; congruence ].
Qed.

Lemma StartCLR_null_iff_step_failed_witness :
  well_behaved not_loadable /\
  fst (StartCLR not_loadable (L "v4.0.30319") []) = Ret NULL /\
  well_behaved no_metahost /\
  fst (StartCLR no_metahost (L "v4.0.30319") []) = Ret NULL /\
  well_behaved healthy /\
  fst (StartCLR healthy (L "v4.0.30319") []) = Ret 12288%Z.
Proof.
  assert (W : well_behaved not_loadable).
  { apply scripted_well_behaved; cbn; intros; discriminate. }
  assert (W0 : well_behaved no_metahost).
  { apply scripted_well_behaved; cbn; intros; try discriminate. }
  assert (W1 : well_behaved healthy).
  { apply scripted_well_behaved; cbn; intros; discriminate. }
  split; [exact W|]. split.
  { apply (proj1 (proj2 (proj2
      (StartCLR_null_iff_step_failed not_loadable (L "v4.0.30319") [] W))));
      [reflexivity|reflexivity|now right]. }
  split; [exact W0|]. split.
  { apply (proj1
      (StartCLR_null_iff_step_failed no_metahost (L "v4.0.30319") [] W0)).
    discriminate. }
  split; [exact W1|].
  apply (proj1 (proj2 (proj2 (proj2 (proj2
    (StartCLR_null_iff_step_failed healthy (L "v4.0.30319") [] W1)))))).
  all: try reflexivity. discriminate.
Defined.

(** The four ways to fail and the one way to succeed, run. *)
Example StartCLR_sample_runs :
  fst (StartCLR no_metahost (L "v4.0.30319") []) = Ret NULL /\
  fst (StartCLR version_missing (L "v4.0.30319") []) = Ret NULL /\
  fst (StartCLR not_loadable (L "v4.0.30319") []) = Ret NULL /\
  fst (StartCLR no_host (L "v4.0.30319") []) = Ret NULL /\
  fst (StartCLR healthy (L "v4.0.30319") []) = Ret 12288%Z.
Proof. repeat split. Qed.

(** Every run that returns null is a run of calls followed by the releases
    of what those calls acquired, last acquired first. *)
Lemma StartCLR_null_shape P dotNetVersion h evs :
  StartCLR P dotNetVersion h = (Ret NULL, evs) ->
  exists calls,
    evs = calls ++ release_each (rev (acquired calls)) /\
    released calls = [].
Proof.
  StartCLR_cases; intro H; inversion H; subst; clear H;
    try (rewrite Z.eqb_refl in *; discriminate);
    remaining_tests;
    match goal with
    | |- exists _, ?evs = _ /\ _ =>
        exists (filter (fun e => negb (is_release e)) evs)
    end;
    cbn; use_tests; cbn; split; reflexivity.
Qed.

(** C3.  When [StartCLR] returns null, its calls are followed by the
    release of every interface pointer those calls handed over, in the
    reverse of the order in which they were handed over; each is released
    exactly once, so as many are released as were acquired. *)
Theorem StartCLR_failure_releases_in_reverse P dotNetVersion h evs :
  StartCLR P dotNetVersion h = (Ret NULL, evs) ->
  (exists calls,
     evs = calls ++ release_each (rev (acquired calls)) /\
     released calls = []) /\
  released evs = rev (acquired evs) /\
  (forall x, count_occ handle_eq_dec (released evs) x =
             count_occ handle_eq_dec (acquired evs) x) /\
  length (released evs) = length (acquired evs).
Proof.
  intro Hrun.
  destruct (StartCLR_null_shape _ _ _ _ Hrun) as [calls [-> Hnone]].
  assert (Hrev : released (calls ++ release_each (rev (acquired calls))) =
                 rev (acquired (calls ++ release_each (rev (acquired calls))))).
  { rewrite released_app, acquired_app, Hnone.
    rewrite released_release_each, acquired_release_each.
    now rewrite app_nil_r. }
  split; [now exists calls|].
  split; [exact Hrev|].
  rewrite Hrev. split.
  - intro x. apply count_occ_rev.
  - apply length_rev.
Qed.

Lemma StartCLR_failure_releases_in_reverse_witness :
  released (snd (StartCLR not_loadable (L "v4.0.30319") [])) =
    [(ICLRRuntimeInfo, 8192%Z); (ICLRMetaHost, 4096%Z)] /\
  acquired (snd (StartCLR not_loadable (L "v4.0.30319") [])) =
    [(ICLRMetaHost, 4096%Z); (ICLRRuntimeInfo, 8192%Z)] /\
  released (snd (StartCLR not_loadable (L "v4.0.30319") [])) =
    rev (acquired (snd (StartCLR not_loadable (L "v4.0.30319") []))).
Proof.
  split; [reflexivity|]. split; [reflexivity|].
  exact (proj1 (proj2
    (StartCLR_failure_releases_in_reverse not_loadable (L "v4.0.30319") []
       _ eq_refl))).
Defined.

(** C4, as the specification has it, at the healthy platform: the run
    succeeds, the metahost and the runtime-info pointers were acquired,
    and nothing at all was released when [StartCLR] returned. *)
Lemma StartCLR_success_keeps_intermediates :
  StartCLR healthy (L "v4.0.30319") [] =
    (Ret 12288%Z,
     [EvCLRCreateInstance S_OK 4096%Z;
      EvGetRuntime 4096%Z (L "v4.0.30319") S_OK 8192%Z;
      EvIsLoadable 8192%Z S_OK 1%Z;
      EvGetInterface 8192%Z S_OK 12288%Z;
      EvStart 12288%Z S_OK]) /\
  In (ICLRMetaHost, 4096%Z)
     (acquired (snd (StartCLR healthy (L "v4.0.30319") []))) /\
  In (ICLRRuntimeInfo, 8192%Z)
     (acquired (snd (StartCLR healthy (L "v4.0.30319") []))) /\
  released (snd (StartCLR healthy (L "v4.0.30319") [])) = [].
Proof.
  split; [reflexivity|]. cbn. repeat split; auto.
Qed.

(** C4, amended.  On every exit of [StartCLR] that returns null, each
    intermediate interface pointer the run acquired (metahost, runtime
    info) has been released by the time the function returns, after the
    last call that used it. *)
Theorem StartCLR_failure_releases_intermediates P dotNetVersion h evs :
  StartCLR P dotNetVersion h = (Ret NULL, evs) ->
  forall i p,
    is_intermediate i = true ->
    In (i, p) (acquired evs) ->
    In (i, p) (released evs) /\
    exists calls releases,
      evs = calls ++ releases /\
      In (i, p) (acquired calls) /\ released calls = [] /\
      In (EvRelease i p) releases /\ acquired releases = [].
Proof.
  intros Hrun i p _ Hin.
  destruct (StartCLR_null_shape _ _ _ _ Hrun) as [calls [-> Hnone]].
  rewrite acquired_app, acquired_release_each, app_nil_r in Hin.
  rewrite released_app, released_release_each, Hnone. cbn [app].
  rewrite <- in_rev. split; [exact Hin|].
  exists calls, (release_each (rev (acquired calls))).
  split; [reflexivity|]. split; [exact Hin|]. split; [exact Hnone|].
  split; [|apply acquired_release_each].
  unfold release_each. apply in_map_iff. exists (i, p).
  split; [reflexivity|]. now apply in_rev in Hin.
Qed.

Lemma StartCLR_failure_releases_intermediates_witness :
  In (ICLRMetaHost, 4096%Z)
     (released (snd (StartCLR not_loadable (L "v4.0.30319") []))).
Proof.
  refine (proj1
    (StartCLR_failure_releases_intermediates not_loadable (L "v4.0.30319") []
       _ eq_refl ICLRMetaHost 4096%Z eq_refl _)).
  cbn. auto.
Defined.

(** What [StartCLR] never does, and the one version it asks for. *)
Lemma StartCLR_no_invocation P dotNetVersion h :
  existsb is_invocation (snd (StartCLR P dotNetVersion h)) = false.
Proof. StartCLR_cases; remaining_tests; reflexivity. Qed.

Lemma StartCLR_requests_its_argument P dotNetVersion h :
  Forall (fun v => v = dotNetVersion)
         (requested_versions (snd (StartCLR P dotNetVersion h))).
Proof.
  StartCLR_cases; remaining_tests; cbn; repeat constructor.
Qed.

Lemma StartCLR_requests_after_create P dotNetVersion h :
  fst (on_CLRCreateInstance P h) = S_OK ->
  snd (on_CLRCreateInstance P h) <> NULL ->
  requested_versions (snd (StartCLR P dotNetVersion h)) = [dotNetVersion].
Proof.
  StartCLR_cases; remaining_tests; cbn [fst snd]; intros Hhr Hp;
    tests_to_facts; try contradiction; reflexivity.
Qed.

(** Once [GetInterface] has answered [S_OK] and [Start] has been called,
    the run ends there and returns the host, whatever [Start] answered. *)
Lemma StartCLR_after_Start P dotNetVersion h self pHost hr_start :
  In (EvGetInterface self S_OK pHost) (snd (StartCLR P dotNetVersion h)) ->
  In (EvStart pHost hr_start) (snd (StartCLR P dotNetVersion h)) ->
  fst (StartCLR P dotNetVersion h) = Ret pHost /\ pHost <> NULL.
Proof.
  StartCLR_cases; remaining_tests; cbn [In app];
    intros Hget Hstart;
    repeat match goal with
    | H : _ \/ _ |- _ => destruct H
    | H : False |- _ => destruct H
    | H : _ = _ :> event |- _ => inversion H; clear H; subst
    end;
    tests_to_facts; try contradiction; try congruence.
  all: split; [reflexivity|assumption].
Qed.

(** ** The entry point *)

Lemma AdapterEntryPoint_too_few P h adapterDllArg :
  length (split adapterDllArg (L "*")) < 4 ->
  AdapterEntryPoint P adapterDllArg h = (Ret tt, []).
Proof.
  intro Hlen. unfold AdapterEntryPoint.
  apply Nat.ltb_lt in Hlen. now rewrite Hlen.
Qed.

(** With four fields or more the entry point is [StartCLR] followed, on a
    non-null host, by one invocation with the first four fields. *)
Lemma AdapterEntryPoint_enough P h adapterDllArg a b c d rest :
  split adapterDllArg (L "*") = a :: b :: c :: d :: rest ->
  AdapterEntryPoint P adapterDllArg h =
  match StartCLR P dotNetVersion_requested h with
  | (Ret pClr, e1) =>
      if Z.eqb pClr NULL then (Ret tt, e1)
      else
        let r := on_ExecuteInDefaultAppDomain P pClr a b c d (h ++ e1) in
        (Ret tt,
         e1 ++ [EvExecuteInDefaultAppDomain pClr a b c d (fst r) (snd r)])
  | (Crash f, e1) => (Crash f, e1)
  end.
Proof.
  intro Hparts. unfold AdapterEntryPoint. rewrite Hparts.
  change (L "v4.0.30319") with dotNetVersion_requested.
  cbn [length Nat.ltb Nat.leb at_ nth_error].
  unfold bind at 1 2 3 4. unfold ret at 1 2 3 4. cbn [app].
  rewrite !app_nil_r.
  unfold bind at 1.
  destruct (StartCLR P dotNetVersion_requested h) as [[pClr|f] e1];
    [|reflexivity].
  unfold ExecuteInDefaultAppDomain, deref.
  destruct (Z.eqb pClr NULL); cbn [negb].
  - cbn. now rewrite app_nil_r.
  - unfold bind, perform, ret. cbn [fst snd app].
    now destruct (on_ExecuteInDefaultAppDomain P pClr a b c d (h ++ e1)).
Qed.

Lemma fields_cases (parts : list wstring) :
  length parts < 4 \/ exists a b c d rest, parts = a :: b :: c :: d :: rest.
Proof.
  destruct parts as [|a [|b [|c [|d rest]]]]; cbn; try (left; lia).
  right. now exists a, b, c, d, rest.
Qed.

Lemma existsb_false_In {A} (f : A -> bool) l x :
  existsb f l = false -> In x l -> f x = false.
Proof.
  intros Hl Hin. destruct (f x) eqn:E; [|reflexivity].
  rewrite <- Hl. symmetry. apply existsb_exists. now exists x.
Qed.

(** C1.  An input with fewer than four fields makes the entry point
    return without a single call, runtime acquisition included.  Any
    invocation of [ExecuteInDefaultAppDomain] that the entry point makes is
    made on an input of at least four fields and on the non-null host
    pointer that [StartCLR] returned.  When [StartCLR] returns null the
    entry point returns at once: on four fields or more its run is the run
    of [StartCLR] and nothing after it, so no invocation is attempted, on
    a null pointer or otherwise. *)
Theorem AdapterEntryPoint_invokes_only_with_fields_and_host
    P adapterDllArg h :
  (length (split adapterDllArg (L "*")) < 4 ->
   AdapterEntryPoint P adapterDllArg h = (Ret tt, [])) /\
  (forall e,
     In e (snd (AdapterEntryPoint P adapterDllArg h)) ->
     is_invocation e = true ->
     4 <= length (split adapterDllArg (L "*")) /\
     exists pClr,
       fst (StartCLR P dotNetVersion_requested h) = Ret pClr /\
       pClr <> NULL /\
       exists a b c d hr result,
         e = EvExecuteInDefaultAppDomain pClr a b c d hr result) /\
  (fst (StartCLR P dotNetVersion_requested h) = Ret NULL ->
   existsb is_invocation (snd (AdapterEntryPoint P adapterDllArg h)) = false) /\
  (fst (StartCLR P dotNetVersion_requested h) = Ret NULL ->
   4 <= length (split adapterDllArg (L "*")) ->
   AdapterEntryPoint P adapterDllArg h =
     (Ret tt, snd (StartCLR P dotNetVersion_requested h))).
Proof.
  split; [apply AdapterEntryPoint_too_few|].
  destruct (fields_cases (split adapterDllArg (L "*")))
    as [Hfew | [a [b [c [d [rest Hparts]]]]]].
  - rewrite (AdapterEntryPoint_too_few P h _ Hfew). cbn [fst snd In existsb].
    split; [intros e []|]. split; [reflexivity|]. intros _ Hlen. lia.
  - rewrite (AdapterEntryPoint_enough P h _ _ _ _ _ _ Hparts), Hparts.
    pose proof (StartCLR_no_invocation P dotNetVersion_requested h) as Hnone.
    destruct (StartCLR P dotNetVersion_requested h) as [[pClr|f] e1];
      cbn [fst snd] in *.
    + destruct (Z.eqb_spec pClr NULL) as [->|Hp]; cbn [fst snd].
      * split; [|split; [intros _; exact Hnone|reflexivity]].
        intros e Hin He.
        rewrite (existsb_false_In _ _ _ Hnone Hin) in He. discriminate.
      * split; [|split; intro E; congruence].
        intros e Hin He. apply in_app_or in Hin as [Hin|[<-|[]]].
        -- rewrite (existsb_false_In _ _ _ Hnone Hin) in He. discriminate.
        -- split; [cbn; lia|]. exists pClr. repeat split; [assumption|].
           now repeat eexists.
    + split; [|split; discriminate].
      intros e Hin He.
      rewrite (existsb_false_In _ _ _ Hnone Hin) in He. discriminate.
Qed.

Lemma AdapterEntryPoint_invokes_only_with_fields_and_host_witness :
  AdapterEntryPoint not_loadable (L "a*b*c*d") [] =
    (Ret tt, snd (StartCLR not_loadable dotNetVersion_requested [])) /\
  AdapterEntryPoint healthy (L "a*b*c") [] = (Ret tt, []).
Proof.
  split.
  - apply (proj2 (proj2 (proj2
      (AdapterEntryPoint_invokes_only_with_fields_and_host
         not_loadable (L "a*b*c*d") [])))); [reflexivity|].
    vm_compute. lia.
  - apply (proj1
      (AdapterEntryPoint_invokes_only_with_fields_and_host
         healthy (L "a*b*c") [])).
    vm_compute. lia.
Defined.

(** Runs of the entry point: too few fields, a runtime that cannot be
    loaded, and a full run that ends in the invocation. *)
Example AdapterEntryPoint_sample_runs :
  AdapterEntryPoint healthy (L "a*b*c") [] = (Ret tt, []) /\
  existsb is_invocation
    (snd (AdapterEntryPoint not_loadable (L "a*b*c*d") [])) = false /\
  AdapterEntryPoint healthy
    (L "C:\payload.dll*MyNamespace.MyType*Run*hello-world") [] =
    (Ret tt,
     [EvCLRCreateInstance S_OK 4096%Z;
      EvGetRuntime 4096%Z (L "v4.0.30319") S_OK 8192%Z;
      EvIsLoadable 8192%Z S_OK 1%Z;
      EvGetInterface 8192%Z S_OK 12288%Z;
      EvStart 12288%Z S_OK;
      EvExecuteInDefaultAppDomain 12288%Z (L "C:\payload.dll")
        (L "MyNamespace.MyType") (L "Run") (L "hello-world") S_OK 7%Z]).
Proof. repeat split. Qed.

(** C6.  On an input with more than four fields the entry point does what
    it does on the input made of the first four fields alone: it calls
    [StartCLR] and, when that returns a non-null pointer, calls
    [ExecuteInDefaultAppDomain] on it with the first four fields as
    assembly path, type name, method name and argument, and returns.  No
    other invocation is made, and any other input with the same first four
    fields gives the same run. *)
Theorem AdapterEntryPoint_ignores_extra_fields P h adapterDllArg :
  4 < length (split adapterDllArg (L "*")) ->
  exists a b c d rest,
    split adapterDllArg (L "*") = a :: b :: c :: d :: rest /\
    rest <> [] /\
    split (join (L "*") [a; b; c; d]) (L "*") = [a; b; c; d] /\
    AdapterEntryPoint P adapterDllArg h =
      AdapterEntryPoint P (join (L "*") [a; b; c; d]) h /\
    AdapterEntryPoint P adapterDllArg h =
      match StartCLR P dotNetVersion_requested h with
      | (Ret pClr, e1) =>
          if Z.eqb pClr NULL then (Ret tt, e1)
          else
            let r := on_ExecuteInDefaultAppDomain P pClr a b c d (h ++ e1) in
            (Ret tt,
             e1 ++
             [EvExecuteInDefaultAppDomain pClr a b c d (fst r) (snd r)])
      | (Crash f, e1) => (Crash f, e1)
      end /\
    (forall pClr,
       fst (StartCLR P dotNetVersion_requested h) = Ret pClr ->
       pClr <> NULL ->
       exists hr result,
         AdapterEntryPoint P adapterDllArg h =
         (Ret tt,
          snd (StartCLR P dotNetVersion_requested h) ++
          [EvExecuteInDefaultAppDomain pClr a b c d hr result])) /\
    (forall e,
       In e (snd (AdapterEntryPoint P adapterDllArg h)) ->
       is_invocation e = true ->
       exists pClr hr result,
         e = EvExecuteInDefaultAppDomain pClr a b c d hr result) /\
    (forall other,
       4 <= length (split other (L "*")) ->
       firstn 4 (split other (L "*")) = [a; b; c; d] ->
       AdapterEntryPoint P other h = AdapterEntryPoint P adapterDllArg h).
Proof.
  intro Hlen.
  pose proof (split_fields_clean adapterDllArg) as Hclean.
  destruct (split adapterDllArg (L "*")) as [|a [|b [|c [|d rest]]]] eqn:Hparts;
    cbn in Hlen; try lia.
  exists a, b, c, d, rest.
  assert (Hfour : split (join (L "*") [a; b; c; d]) (L "*") = [a; b; c; d]).
  { apply split_join; [discriminate|].
    inversion Hclean as [|? ? Ha H1]; subst.
    inversion H1 as [|? ? Hb H2]; subst.
    inversion H2 as [|? ? Hc H3]; subst.
    inversion H3 as [|? ? Hd H4]; subst.
    repeat constructor; assumption. }
  split; [reflexivity|].
  split; [destruct rest; [cbn in Hlen; lia|discriminate]|].
  split; [exact Hfour|].
  rewrite (AdapterEntryPoint_enough P h _ _ _ _ _ _ Hparts).
  split; [now rewrite (AdapterEntryPoint_enough P h _ _ _ _ _ _ Hfour)|].
  split; [reflexivity|].
  pose proof (StartCLR_no_invocation P dotNetVersion_requested h) as Hnone.
  split; [|split].
  - intros pClr Hret Hp.
    destruct (StartCLR P dotNetVersion_requested h) as [o e1].
    cbn [fst snd] in *. subst o.
    rewrite (proj2 (Z.eqb_neq pClr NULL) Hp). cbn zeta.
    now repeat eexists.
  - destruct (StartCLR P dotNetVersion_requested h) as [[pClr|f] e1];
      cbn [fst snd] in *; [destruct (Z.eqb pClr NULL)|]; cbn [fst snd];
      intros e Hin He;
      try (rewrite (existsb_false_In _ _ _ Hnone Hin) in He; discriminate).
    apply in_app_or in Hin as [Hin|[<-|[]]].
    + rewrite (existsb_false_In _ _ _ Hnone Hin) in He. discriminate.
    + now repeat eexists.
  - intros other Hother Hsame.
    destruct (split other (L "*")) as [|a' [|b' [|c' [|d' rest']]]] eqn:Ho;
      cbn in Hother; try lia.
    cbn in Hsame. inversion Hsame; subst.
    now rewrite (AdapterEntryPoint_enough P h _ _ _ _ _ _ Ho).
Qed.

Lemma AdapterEntryPoint_ignores_extra_fields_witness :
  AdapterEntryPoint healthy (L "a*b*c*d*e") [] =
    (Ret tt,
     snd (StartCLR healthy dotNetVersion_requested []) ++
     [EvExecuteInDefaultAppDomain 12288%Z (L "a") (L "b") (L "c") (L "d")
        S_OK 7%Z]) /\
  AdapterEntryPoint healthy (L "a*b*c*d*e") [] =
    AdapterEntryPoint healthy (L "a*b*c*d") [].
Proof.
  assert (Hlen : 4 < length (split (L "a*b*c*d*e") (L "*")))
    by (vm_compute; lia).
  destruct (AdapterEntryPoint_ignores_extra_fields healthy []
              (L "a*b*c*d*e") Hlen)
    as (a & b & c & d & rest & Hparts & _ & _ & Hsame & Hrun & _).
  vm_compute in Hparts.
  injection Hparts as <- <- <- <- _.
  split; [exact Hrun|exact Hsame].
Defined.

Example five_fields_run :
  AdapterEntryPoint healthy (L "a*b*c*d*e") [] =
    AdapterEntryPoint healthy (L "a*b*c*d") [] /\
  last (snd (AdapterEntryPoint healthy (L "a*b*c*d*e") [])) (EvStart NULL S_OK) =
    EvExecuteInDefaultAppDomain 12288%Z (L "a") (L "b") (L "c") (L "d")
      S_OK 7%Z.
Proof. split; reflexivity. Qed.

Lemma StartCLR_returns P dotNetVersion h :
  well_behaved P -> exists pClr, fst (StartCLR P dotNetVersion h) = Ret pClr.
Proof.
  intro W. StartCLR_cases;
    first [ against_contract W | eexists; reflexivity ].
Qed.

Lemma last_invocation (e1 pre post : list event) x e :
  existsb is_invocation e1 = false ->
  e1 ++ [x] = pre ++ e :: post ->
  is_invocation e = true ->
  post = [].
Proof.
  intros Hnone Heq He.
  destruct (exists_last (l := e :: post)) as [front [z Hz]]; [discriminate|].
  destruct post as [|y post]; [reflexivity|exfalso].
  rewrite Hz, app_assoc in Heq. apply app_inj_tail in Heq as [-> _].
  destruct front as [|f front]; [destruct post; discriminate|].
  inversion Hz; subst.
  rewrite (existsb_false_In is_invocation _ f Hnone) in He; [discriminate|].
  apply in_or_app. right. now left.
Qed.

Lemma map_forget_invocation e1 p a b c d hr result hr' result' :
  map forget_result
      (e1 ++ [EvExecuteInDefaultAppDomain p a b c d hr result]) =
  map forget_result
      (e1 ++ [EvExecuteInDefaultAppDomain p a b c d hr' result']).
Proof. now rewrite !map_app. Qed.

(** C8.  On a platform that keeps the COM contract the entry point
    returns to its caller normally and with no value, whatever the input
    and whatever parsing, acquisition or invocation came to.  In
    particular the [HRESULT] and the result code of the invocation reach
    nothing: with any other managed payload behind the invocation the
    entry point returns the same, and makes the same calls, and the
    invocation is the last thing it does. *)
Theorem AdapterEntryPoint_surfaces_nothing P h adapterDllArg :
  well_behaved P ->
  fst (AdapterEntryPoint P adapterDllArg h) = Ret tt /\
  (forall payload,
     fst (AdapterEntryPoint (with_payload P payload) adapterDllArg h) =
       Ret tt /\
     map forget_result
         (snd (AdapterEntryPoint (with_payload P payload) adapterDllArg h)) =
     map forget_result (snd (AdapterEntryPoint P adapterDllArg h))) /\
  (forall pre e post,
     snd (AdapterEntryPoint P adapterDllArg h) = pre ++ e :: post ->
     is_invocation e = true ->
     post = []).
Proof.
  intro W.
  destruct (fields_cases (split adapterDllArg (L "*")))
    as [Hfew | [a [b [c [d [rest Hparts]]]]]].
  - rewrite (AdapterEntryPoint_too_few P h _ Hfew).
    split; [reflexivity|]. split.
    + intro payload.
      now rewrite (AdapterEntryPoint_too_few (with_payload P payload) h _ Hfew).
    + intros pre e post Heq. destruct pre; discriminate.
  - rewrite (AdapterEntryPoint_enough P h _ _ _ _ _ _ Hparts).
    assert (Hsame : forall payload,
              StartCLR (with_payload P payload) dotNetVersion_requested h =
              StartCLR P dotNetVersion_requested h) by reflexivity.
    pose proof (StartCLR_no_invocation P dotNetVersion_requested h) as Hnone.
    destruct (StartCLR_returns P dotNetVersion_requested h W) as [pClr Hret].
    destruct (StartCLR P dotNetVersion_requested h) as [o e1] eqn:Hrun.
    cbn [fst snd] in *. subst o.
    split; [now destruct (Z.eqb pClr NULL)|]. split.
    + intro payload.
      rewrite (AdapterEntryPoint_enough _ h _ _ _ _ _ _ Hparts), Hsame.
      destruct (Z.eqb pClr NULL); cbn [fst snd]; split; try reflexivity.
      apply map_forget_invocation.
    + destruct (Z.eqb pClr NULL); cbn [fst snd]; intros pre e post Heq He.
      * exfalso. rewrite (existsb_false_In is_invocation e1 e Hnone) in He;
          [discriminate|]. rewrite Heq. apply in_or_app. right. now left.
      * exact (last_invocation _ _ _ _ _ Hnone Heq He).
Qed.

Lemma AdapterEntryPoint_surfaces_nothing_witness :
  well_behaved healthy /\
  fst (AdapterEntryPoint healthy (L "a*b*c*d") []) = Ret tt /\
  fst (AdapterEntryPoint
         (with_payload healthy (fun _ _ _ _ _ _ => (E_FAIL, 99%Z)))
         (L "a*b*c*d") []) = Ret tt.
Proof.
  assert (W : well_behaved healthy).
  { apply scripted_well_behaved; cbn; intros; discriminate. }
  pose proof (AdapterEntryPoint_surfaces_nothing healthy [] (L "a*b*c*d") W)
    as [Hret [Hpayload _]].
  split; [exact W|]. split; [exact Hret|].
  exact (proj1 (Hpayload (fun _ _ _ _ _ _ => (E_FAIL, 99%Z)))).
Defined.

Lemma requested_versions_app a b :
  requested_versions (a ++ b) = requested_versions a ++ requested_versions b.
Proof. apply flat_map_app. Qed.

(** The versions the entry point asks for are those its call to
    [StartCLR] asks for. *)
Lemma AdapterEntryPoint_requests P h adapterDllArg :
  requested_versions (snd (AdapterEntryPoint P adapterDllArg h)) = [] \/
  4 <= length (split adapterDllArg (L "*")) /\
  requested_versions (snd (AdapterEntryPoint P adapterDllArg h)) =
  requested_versions (snd (StartCLR P dotNetVersion_requested h)).
Proof.
  destruct (fields_cases (split adapterDllArg (L "*")))
    as [Hfew | [a [b [c [d [rest Hparts]]]]]].
  - left. now rewrite (AdapterEntryPoint_too_few P h _ Hfew).
  - right. rewrite (AdapterEntryPoint_enough P h _ _ _ _ _ _ Hparts), Hparts.
    split; [cbn; lia|].
    destruct (StartCLR P dotNetVersion_requested h) as [[pClr|f] e1];
      [destruct (Z.eqb pClr NULL)|]; cbn [fst snd]; try reflexivity.
    rewrite requested_versions_app. cbn. apply app_nil_r.
Qed.

(** C9.  Whatever the input, every runtime version the entry point asks
    [GetRuntime] for is [L"v4.0.30319"]; so the versions asked for on two
    inputs never differ; and on an input of at least four fields, once
    [CLRCreateInstance] has succeeded, that version is asked for. *)
Theorem AdapterEntryPoint_requests_fixed_version P h adapterDllArg :
  Forall (fun v => v = L "v4.0.30319")
         (requested_versions (snd (AdapterEntryPoint P adapterDllArg h))) /\
  (forall other v v',
     In v (requested_versions (snd (AdapterEntryPoint P adapterDllArg h))) ->
     In v' (requested_versions (snd (AdapterEntryPoint P other h))) ->
     v = v') /\
  (4 <= length (split adapterDllArg (L "*")) ->
   fst (on_CLRCreateInstance P h) = S_OK ->
   snd (on_CLRCreateInstance P h) <> NULL ->
   requested_versions (snd (AdapterEntryPoint P adapterDllArg h)) =
     [L "v4.0.30319"]).
Proof.
  assert (Hall : forall s,
            Forall (fun v => v = L "v4.0.30319")
              (requested_versions (snd (AdapterEntryPoint P s h)))).
  { intro s. destruct (AdapterEntryPoint_requests P h s) as [-> | [_ ->]];
      [constructor|].
    apply (StartCLR_requests_its_argument P dotNetVersion_requested h). }
  split; [apply Hall|]. split.
  - intros other v v' Hv Hv'.
    pose proof (proj1 (Forall_forall _ _) (Hall adapterDllArg) v Hv).
    pose proof (proj1 (Forall_forall _ _) (Hall other) v' Hv').
    congruence.
  - intros Hlen Hhr Hp.
    destruct (AdapterEntryPoint_requests P h adapterDllArg) as [E | [_ ->]].
    + exfalso.
      destruct (split adapterDllArg (L "*")) as [|a [|b [|c [|d rest]]]]
        eqn:Hparts; cbn in Hlen; try lia.
      rewrite (AdapterEntryPoint_enough P h _ _ _ _ _ _ Hparts) in E.
      pose proof (StartCLR_requests_after_create P dotNetVersion_requested h
                    Hhr Hp) as Hreq.
      destruct (StartCLR P dotNetVersion_requested h) as [[pClr|f] e1];
        [destruct (Z.eqb pClr NULL)|]; cbn [fst snd] in *;
        try rewrite requested_versions_app in E;
        rewrite Hreq in E; discriminate.
    + apply (StartCLR_requests_after_create P dotNetVersion_requested h Hhr Hp).
Qed.

(** C10.  In a run of [StartCLR] in which [GetInterface] answered [S_OK]
    and the [Start] that followed answered a failure code, [StartCLR]
    returns the host pointer, which is not null; the entry point, given at
    least four fields, then makes its invocation on that pointer. *)
Theorem Start_failure_is_not_acquisition_failure
    P dotNetVersion h self pHost hr_start :
  In (EvGetInterface self S_OK pHost) (snd (StartCLR P dotNetVersion h)) ->
  In (EvStart pHost hr_start) (snd (StartCLR P dotNetVersion h)) ->
  hr_start <> S_OK ->
  fst (StartCLR P dotNetVersion h) = Ret pHost /\
  pHost <> NULL /\
  (dotNetVersion = dotNetVersion_requested ->
   forall adapterDllArg a b c d rest,
     split adapterDllArg (L "*") = a :: b :: c :: d :: rest ->
     exists hr result,
       AdapterEntryPoint P adapterDllArg h =
       (Ret tt,
        snd (StartCLR P dotNetVersion h) ++
        [EvExecuteInDefaultAppDomain pHost a b c d hr result])).
Proof.
  intros Hget Hstart _.
  destruct (StartCLR_after_Start P dotNetVersion h self pHost hr_start
              Hget Hstart) as [Hret Hp].
  split; [exact Hret|]. split; [exact Hp|].
  intros -> adapterDllArg a b c d rest Hparts.
  rewrite (AdapterEntryPoint_enough P h _ _ _ _ _ _ Hparts).
  destruct (StartCLR P dotNetVersion_requested h) as [o e1].
  cbn [fst snd] in *. subst o.
  rewrite (proj2 (Z.eqb_neq pHost NULL) Hp). cbn zeta.
  now repeat eexists.
Qed.

Lemma Start_failure_is_not_acquisition_failure_witness :
  fst (StartCLR start_fails (L "v4.0.30319") []) = Ret 12288%Z /\
  exists hr result,
    AdapterEntryPoint start_fails (L "a*b*c*d") [] =
    (Ret tt,
     snd (StartCLR start_fails (L "v4.0.30319") []) ++
     [EvExecuteInDefaultAppDomain 12288%Z (L "a") (L "b") (L "c") (L "d")
        hr result]).
Proof.
  assert (Hfail : E_FAIL <> S_OK) by discriminate.
  pose proof (Start_failure_is_not_acquisition_failure
                start_fails (L "v4.0.30319") [] 8192%Z 12288%Z E_FAIL)
    as Hthm.
  destruct Hthm as [Hret [_ Hcall]].
  - cbn. auto 10.
  - cbn. auto 10.
  - exact Hfail.
  - split; [exact Hret|].
    exact (Hcall eq_refl (L "a*b*c*d") (L "a") (L "b") (L "c") (L "d") []
             eq_refl).
Defined.


(** * More about the acquirer *)

Lemma StartCLR_crash_kind P dotNetVersion h f :
  fst (StartCLR P dotNetVersion h) = Crash f -> f = NullDereference.
Proof. StartCLR_cases; cbn [fst]; intro E; congruence. Qed.

(** X1.  The only way a run of [StartCLR] ends other than by returning is
    the dereference of a null pointer, and that happens exactly when a
    call answered [S_OK] and left a null interface pointer; that call is
    then the last thing the run did, and nothing has been released. *)
Theorem StartCLR_crashes_iff_null_with_S_OK P dotNetVersion h :
  (forall f, fst (StartCLR P dotNetVersion h) = Crash f ->
             f = NullDereference) /\
  (existsb hands_null (snd (StartCLR P dotNetVersion h)) = true <->
   fst (StartCLR P dotNetVersion h) = Crash NullDereference) /\
  (existsb hands_null (snd (StartCLR P dotNetVersion h)) = true ->
   released (snd (StartCLR P dotNetVersion h)) = [] /\
   exists front e,
     snd (StartCLR P dotNetVersion h) = front ++ [e] /\
     hands_null e = true).
Proof.
  split; [apply StartCLR_crash_kind|].
  StartCLR_cases; remaining_tests; cbn; use_tests; cbn;
    (split; [split; intro E; congruence|]);
    intro E; try discriminate; (split; [reflexivity|]);
    match goal with
    | |- exists _ _, ?l = _ /\ _ =>
        exists (removelast l), (last l (EvStart NULL S_OK))
    end;
    cbn; use_tests; split; reflexivity.
Qed.

(** A run that returns a non-null pointer is the five calls, each on the
    pointer the one before handed over, and nothing else. *)
Lemma StartCLR_nonnull_run P dotNetVersion h pClr :
  fst (StartCLR P dotNetVersion h) = Ret pClr -> pClr <> NULL ->
  exists pMeta pInfo fLoadable hr_start,
    pMeta <> NULL /\ pInfo <> NULL /\ fLoadable <> 0%Z /\
    snd (StartCLR P dotNetVersion h) =
      [EvCLRCreateInstance S_OK pMeta;
       EvGetRuntime pMeta dotNetVersion S_OK pInfo;
       EvIsLoadable pInfo S_OK fLoadable;
       EvGetInterface pInfo S_OK pClr;
       EvStart pClr hr_start].
Proof.
  StartCLR_cases; cbn [fst snd]; intros E Hp; inversion E; subst;
    try contradiction.
  tests_to_facts; subst.
  repeat eexists; assumption.
Qed.

(** X2.  [StartCLR] returns a non-null pointer exactly in the runs that
    consist of the five calls [CLRCreateInstance], [GetRuntime],
    [IsLoadable], [GetInterface], [Start], all but the last answering
    [S_OK], each made on the pointer the call before handed over, with the
    requested version passed to [GetRuntime] unchanged; the pointer
    returned is the one [GetInterface] handed over. *)
Theorem StartCLR_returns_host_iff_five_calls P dotNetVersion h pClr :
  (fst (StartCLR P dotNetVersion h) = Ret pClr /\ pClr <> NULL) <->
  exists pMeta pInfo fLoadable hr_start,
    pMeta <> NULL /\ pInfo <> NULL /\ fLoadable <> 0%Z /\ pClr <> NULL /\
    snd (StartCLR P dotNetVersion h) =
      [EvCLRCreateInstance S_OK pMeta;
       EvGetRuntime pMeta dotNetVersion S_OK pInfo;
       EvIsLoadable pInfo S_OK fLoadable;
       EvGetInterface pInfo S_OK pClr;
       EvStart pClr hr_start].
Proof.
  split.
  - intros [E Hp].
    destruct (StartCLR_nonnull_run P dotNetVersion h pClr E Hp)
      as (m & i & fl & hr & Hm & Hi & Hfl & Hevs).
    now exists m, i, fl, hr.
  - intros (m & i & fl & hr & Hm & Hi & Hfl & Hp & Hevs).
    split; [|exact Hp]. revert Hevs.
    StartCLR_cases; remaining_tests; cbn [fst snd app]; intro E;
      inversion E; subst; tests_to_facts; congruence.
Qed.

(** X3.  The runtime is started in a run of [StartCLR] exactly when that
    run returns a non-null pointer: no failure path reaches [Start]. *)
Theorem Start_called_iff_host_returned P dotNetVersion h :
  existsb is_start (snd (StartCLR P dotNetVersion h)) =
  host_ready (fst (StartCLR P dotNetVersion h)).
Proof.
  StartCLR_cases; remaining_tests; cbn; use_tests; reflexivity.
Qed.

(** X9.  [StartCLR] asks [GetRuntime] for the version it was given,
    unchanged, and for no other; it asks once when [CLRCreateInstance]
    answered [S_OK] with a non-null metahost, and not at all otherwise. *)
Theorem StartCLR_requests_given_version_once P dotNetVersion h :
  requested_versions (snd (StartCLR P dotNetVersion h)) =
  if Z.eqb (fst (on_CLRCreateInstance P h)) S_OK &&
     negb (Z.eqb (snd (on_CLRCreateInstance P h)) NULL)
  then [dotNetVersion] else [].
Proof.
  StartCLR_cases; remaining_tests; cbn; use_tests; reflexivity.
Qed.

(** * More about the entry point *)

Lemma is_held_refl p : p <> NULL -> is_held p p = true.
Proof.
  intro Hp. unfold is_held.
  now rewrite Z.eqb_refl, (proj2 (Z.eqb_neq p NULL) Hp).
Qed.

(** Every run of [StartCLR] is accepted by [follow]; after a run that
    returned a non-null pointer that pointer is the host held. *)
Lemma StartCLR_followed P dotNetVersion h :
  exists s,
    follow_all (snd (StartCLR P dotNetVersion h)) (Some nothing_held) =
      Some s /\
    (forall pClr, fst (StartCLR P dotNetVersion h) = Ret pClr ->
                  pClr <> NULL -> h_host s = pClr).
Proof.
  StartCLR_cases; remaining_tests; tests_to_facts;
    unfold follow_all; cbn [fold_left follow nothing_held h_meta h_info h_host app];
    repeat (rewrite is_held_refl by assumption;
            cbn [fold_left follow h_meta h_info h_host]);
    eexists; (split; [reflexivity|]);
    cbn [fst h_host]; intros pClr E Hp; congruence.
Qed.

(** X4.  In every run of the entry point each method call and each
    release is made on the non-null pointer that the latest acquisition
    call for that interface handed over and that has not been released
    since: nothing is used after its release and nothing is released
    twice. *)
Theorem AdapterEntryPoint_uses_only_held_pointers P adapterDllArg h :
  exists s,
    follow_all (snd (AdapterEntryPoint P adapterDllArg h))
               (Some nothing_held) = Some s.
Proof.
  destruct (fields_cases (split adapterDllArg (L "*")))
    as [Hfew | [a [b [c [d [rest Hparts]]]]]].
  - rewrite (AdapterEntryPoint_too_few P h _ Hfew). now eexists.
  - rewrite (AdapterEntryPoint_enough P h _ _ _ _ _ _ Hparts).
    destruct (StartCLR_followed P dotNetVersion_requested h) as [s [Hs Hhost]].
    destruct (StartCLR P dotNetVersion_requested h) as [[pClr|f] e1];
      cbn [fst snd] in *; [|now exists s].
    destruct (Z.eqb_spec pClr NULL) as [->|Hp]; cbn [snd]; [now exists s|].
    exists s. unfold follow_all in *. rewrite fold_left_app, Hs.
    cbn [fold_left follow].
    now rewrite (Hhost pClr eq_refl Hp), is_held_refl.
Qed.

(** X5.  The entry point never lets [std::out_of_range] escape from
    [parts.at]: it ends other than by returning only when its call to
    [StartCLR] dereferences a null pointer, on an input of at least four
    fields, and it has then done nothing beyond what [StartCLR] did. *)
Theorem AdapterEntryPoint_faults_only_in_StartCLR P adapterDllArg h f :
  fst (AdapterEntryPoint P adapterDllArg h) = Crash f ->
  f = NullDereference /\
  4 <= length (split adapterDllArg (L "*")) /\
  fst (StartCLR P dotNetVersion_requested h) = Crash NullDereference /\
  snd (AdapterEntryPoint P adapterDllArg h) =
    snd (StartCLR P dotNetVersion_requested h).
Proof.
  destruct (fields_cases (split adapterDllArg (L "*")))
    as [Hfew | [a [b [c [d [rest Hparts]]]]]].
  - rewrite (AdapterEntryPoint_too_few P h _ Hfew). discriminate.
  - rewrite (AdapterEntryPoint_enough P h _ _ _ _ _ _ Hparts), Hparts.
    pose proof (StartCLR_crash_kind P dotNetVersion_requested h) as Hkind.
    destruct (StartCLR P dotNetVersion_requested h) as [[pClr|g] e1];
      cbn [fst snd] in *.
    + destruct (Z.eqb pClr NULL); discriminate.
    + intro E. inversion E; subst. rewrite (Hkind f eq_refl).
      repeat split. cbn. lia.
Qed.

Lemma AdapterEntryPoint_faults_only_in_StartCLR_witness :
  fst (AdapterEntryPoint null_metahost (L "a*b*c*d") []) =
    Crash NullDereference /\
  snd (AdapterEntryPoint null_metahost (L "a*b*c*d") []) =
    snd (StartCLR null_metahost dotNetVersion_requested []).
Proof.
  split; [reflexivity|].
  exact (proj2 (proj2 (proj2
    (AdapterEntryPoint_faults_only_in_StartCLR null_metahost (L "a*b*c*d") []
       NullDereference eq_refl)))).
Defined.

Lemma existsb_false_filter {A} (f : A -> bool) l :
  existsb f l = false -> filter f l = [].
Proof.
  induction l as [|x l IH]; cbn; [reflexivity|].
  destruct (f x); cbn; [discriminate|exact IH].
Qed.

(** X6.  One call of the entry point makes the invocation exactly once
    when the input has at least four fields and [StartCLR] returned a
    non-null pointer, and not at all otherwise. *)
Theorem AdapterEntryPoint_invokes_once_or_never P adapterDllArg h :
  length (filter is_invocation (snd (AdapterEntryPoint P adapterDllArg h))) =
  if Nat.leb 4 (length (split adapterDllArg (L "*"))) &&
     host_ready (fst (StartCLR P dotNetVersion_requested h))
  then 1 else 0.
Proof.
  destruct (fields_cases (split adapterDllArg (L "*")))
    as [Hfew | [a [b [c [d [rest Hparts]]]]]].
  - rewrite (AdapterEntryPoint_too_few P h _ Hfew).
    apply Nat.leb_gt in Hfew. now rewrite Hfew.
  - rewrite (AdapterEntryPoint_enough P h _ _ _ _ _ _ Hparts), Hparts.
    pose proof (existsb_false_filter _ _
                  (StartCLR_no_invocation P dotNetVersion_requested h)) as Hnone.
    destruct (StartCLR P dotNetVersion_requested h) as [[pClr|g] e1];
      cbn [fst snd length Nat.leb andb host_ready] in *.
    + destruct (Z.eqb pClr NULL); cbn [snd negb].
      * now rewrite Hnone.
      * now rewrite filter_app, Hnone.
    + now rewrite Hnone.
Qed.

Lemma StartCLR_null_balanced P dotNetVersion h evs :
  StartCLR P dotNetVersion h = (Ret NULL, evs) ->
  released evs = rev (acquired evs).
Proof.
  intro Hrun.
  destruct (StartCLR_null_shape _ _ _ _ Hrun) as [calls [-> Hnone]].
  rewrite released_app, acquired_app, Hnone.
  rewrite released_release_each, acquired_release_each.
  now rewrite app_nil_r.
Qed.

(** The two kinds of run of the entry point that return: one without an
    invocation, in which everything acquired was released; one that is the
    five calls of a successful [StartCLR] and then the invocation. *)
Lemma AdapterEntryPoint_returning_run P adapterDllArg h :
  fst (AdapterEntryPoint P adapterDllArg h) = Ret tt ->
  (existsb is_invocation (snd (AdapterEntryPoint P adapterDllArg h)) = false /\
   released (snd (AdapterEntryPoint P adapterDllArg h)) =
     rev (acquired (snd (AdapterEntryPoint P adapterDllArg h)))) \/
  (exists pMeta pInfo fLoadable hr_start pClr a b c d hr result,
     pMeta <> NULL /\ pInfo <> NULL /\ pClr <> NULL /\
     snd (AdapterEntryPoint P adapterDllArg h) =
       [EvCLRCreateInstance S_OK pMeta;
        EvGetRuntime pMeta dotNetVersion_requested S_OK pInfo;
        EvIsLoadable pInfo S_OK fLoadable;
        EvGetInterface pInfo S_OK pClr;
        EvStart pClr hr_start;
        EvExecuteInDefaultAppDomain pClr a b c d hr result]).
Proof.
  destruct (fields_cases (split adapterDllArg (L "*")))
    as [Hfew | [a [b [c [d [rest Hparts]]]]]].
  - rewrite (AdapterEntryPoint_too_few P h _ Hfew). intros _. now left.
  - rewrite (AdapterEntryPoint_enough P h _ _ _ _ _ _ Hparts).
    pose proof (StartCLR_no_invocation P dotNetVersion_requested h) as Hnone.
    pose proof (StartCLR_nonnull_run P dotNetVersion_requested h) as Hfive.
    pose proof (StartCLR_null_balanced P dotNetVersion_requested h) as Hbal.
    destruct (StartCLR P dotNetVersion_requested h) as [[pClr|g] e1];
      cbn [fst snd] in *; [|discriminate].
    destruct (Z.eqb_spec pClr NULL) as [->|Hp]; cbn [fst snd]; intros _.
    + left. split; [exact Hnone|]. now apply Hbal.
    + right.
      destruct (Hfive pClr eq_refl Hp) as (m & i & fl & hs & Hm & Hi & _ & ->).
      exists m, i, fl, hs, pClr, a, b, c, d.
      now repeat eexists.
Qed.

(** X7.  What one returning call of the entry point leaves behind.  If it
    made no invocation, everything it acquired has been released, last
    acquired first.  If it made the invocation, it released nothing: the
    metahost, the runtime info and the runtime host on which the
    invocation was made are all still held when it returns. *)
Theorem AdapterEntryPoint_outstanding_references P adapterDllArg h :
  fst (AdapterEntryPoint P adapterDllArg h) = Ret tt ->
  (existsb is_invocation (snd (AdapterEntryPoint P adapterDllArg h)) = false ->
   released (snd (AdapterEntryPoint P adapterDllArg h)) =
     rev (acquired (snd (AdapterEntryPoint P adapterDllArg h)))) /\
  (existsb is_invocation (snd (AdapterEntryPoint P adapterDllArg h)) = true ->
   released (snd (AdapterEntryPoint P adapterDllArg h)) = [] /\
   exists pMeta pInfo pClr,
     acquired (snd (AdapterEntryPoint P adapterDllArg h)) =
       [(ICLRMetaHost, pMeta); (ICLRRuntimeInfo, pInfo);
        (ICLRRuntimeHost, pClr)] /\
     exists a b c d hr result,
       In (EvExecuteInDefaultAppDomain pClr a b c d hr result)
          (snd (AdapterEntryPoint P adapterDllArg h))).
Proof.
  intro Hret.
  destruct (AdapterEntryPoint_returning_run P adapterDllArg h Hret)
    as [[Hnone Hbal] |
        (m & i & fl & hs & p & a & b & c & d & hr & r & Hm & Hi & Hp & ->)].
  - split; [intros _; exact Hbal|]. rewrite Hnone. discriminate.
  - split; [cbn; discriminate|]. intros _.
    split; [reflexivity|]. exists m, i, p.
    split.
    + cbn. tests_to_facts.
      now rewrite (proj2 (Z.eqb_neq m NULL) Hm), (proj2 (Z.eqb_neq i NULL) Hi),
        (proj2 (Z.eqb_neq p NULL) Hp).
    + exists a, b, c, d, hr, r. cbn. auto 10.
Qed.

Lemma AdapterEntryPoint_outstanding_references_witness :
  released (snd (AdapterEntryPoint healthy (L "a*b*c*d") [])) = [] /\
  acquired (snd (AdapterEntryPoint healthy (L "a*b*c*d") [])) =
    [(ICLRMetaHost, 4096%Z); (ICLRRuntimeInfo, 8192%Z);
     (ICLRRuntimeHost, 12288%Z)].
Proof.
  split; [|reflexivity].
  exact (proj1 (proj2
    (AdapterEntryPoint_outstanding_references healthy (L "a*b*c*d") []
       eq_refl) eq_refl)).
Defined.

Lemma AdapterEntryPoint_returns P adapterDllArg h :
  well_behaved P -> fst (AdapterEntryPoint P adapterDllArg h) = Ret tt.
Proof.
  intro W.
  destruct (fields_cases (split adapterDllArg (L "*")))
    as [Hfew | [a [b [c [d [rest Hparts]]]]]].
  - now rewrite (AdapterEntryPoint_too_few P h _ Hfew).
  - rewrite (AdapterEntryPoint_enough P h _ _ _ _ _ _ Hparts).
    destruct (StartCLR_returns P dotNetVersion_requested h W) as [pClr Hret].
    destruct (StartCLR P dotNetVersion_requested h) as [o e1].
    cbn [fst] in Hret. subst o. now destruct (Z.eqb pClr NULL).
Qed.

Lemma AdapterEntryPoint_run_count P adapterDllArg h :
  fst (AdapterEntryPoint P adapterDllArg h) = Ret tt ->
  length (acquired (snd (AdapterEntryPoint P adapterDllArg h))) =
    length (released (snd (AdapterEntryPoint P adapterDllArg h))) +
    3 * length (filter is_invocation
                  (snd (AdapterEntryPoint P adapterDllArg h))) /\
  length (filter is_invocation (snd (AdapterEntryPoint P adapterDllArg h)))
    <= 1.
Proof.
  intro Hret.
  destruct (AdapterEntryPoint_returning_run P adapterDllArg h Hret)
    as [[Hnone Hbal] |
        (m & i & fl & hs & p & a & b & c & d & hr & r & Hm & Hi & Hp & ->)].
  - rewrite Hbal, length_rev, (existsb_false_filter _ _ Hnone). cbn. lia.
  - cbn.
    rewrite (proj2 (Z.eqb_neq m NULL) Hm), (proj2 (Z.eqb_neq i NULL) Hi),
      (proj2 (Z.eqb_neq p NULL) Hp).
    cbn. lia.
Qed.

(** X8.  On a platform that keeps the COM contract, any number of calls
    of the entry point in one process all return, and when the last has
    returned the process holds three interface pointers more than it has
    released for every invocation made; there is at most one invocation
    per call. *)
Theorem repeated_calls_hold_three_per_invocation P inputs h :
  well_behaved P ->
  fst (repeated_calls P inputs h) = Ret tt /\
  length (acquired (snd (repeated_calls P inputs h))) =
    length (released (snd (repeated_calls P inputs h))) +
    3 * length (filter is_invocation (snd (repeated_calls P inputs h))) /\
  length (filter is_invocation (snd (repeated_calls P inputs h)))
    <= length inputs.
Proof.
  intro W. revert h.
  induction inputs as [|s later IH]; intro h.
  - cbn. repeat split; lia.
  - cbn [repeated_calls]. unfold bind.
    pose proof (AdapterEntryPoint_returns P s h W) as Hret.
    destruct (AdapterEntryPoint_run_count P s h Hret) as [Hcount Hone].
    destruct (AdapterEntryPoint P s h) as [o e1].
    cbn [fst snd] in *. subst o.
    specialize (IH (h ++ e1)).
    destruct (repeated_calls P later (h ++ e1)) as [o2 e2].
    cbn [fst snd length] in *. destruct IH as [-> [IHcount IHle]].
    rewrite acquired_app, released_app, filter_app, !length_app.
    repeat split; lia.
Qed.

Lemma repeated_calls_hold_three_per_invocation_witness :
  well_behaved healthy /\
  fst (repeated_calls healthy
         [L "a*b*c*d"; L "too*few"; L "a*b*c*d*e"] []) = Ret tt /\
  length (acquired (snd (repeated_calls healthy
            [L "a*b*c*d"; L "too*few"; L "a*b*c*d*e"] []))) =
    length (released (snd (repeated_calls healthy
              [L "a*b*c*d"; L "too*few"; L "a*b*c*d*e"] []))) +
    3 * length (filter is_invocation (snd (repeated_calls healthy
                  [L "a*b*c*d"; L "too*few"; L "a*b*c*d*e"] []))) /\
  length (filter is_invocation (snd (repeated_calls healthy
            [L "a*b*c*d"; L "too*few"; L "a*b*c*d*e"] []))) <= 3.
Proof.
  assert (W : well_behaved healthy).
  { apply scripted_well_behaved; cbn; intros; discriminate. }
  split; [exact W|].
  exact (repeated_calls_hold_three_per_invocation healthy
           [L "a*b*c*d"; L "too*few"; L "a*b*c*d*e"] [] W).
Defined.

Example three_calls_two_invocations :
  length (filter is_invocation (snd (repeated_calls healthy
            [L "a*b*c*d"; L "too*few"; L "a*b*c*d*e"] []))) = 2 /\
  length (acquired (snd (repeated_calls healthy
            [L "a*b*c*d"; L "too*few"; L "a*b*c*d*e"] []))) = 6 /\
  released (snd (repeated_calls healthy
            [L "a*b*c*d"; L "too*few"; L "a*b*c*d*e"] [])) = [].
Proof. repeat split. Qed.

(** * The module entry point *)

Lemma DllMain_run pid instance reason reserved h :
  DllMain pid instance reason reserved h = (Ret TRUE, []).
Proof.
  unfold DllMain, bind.
  destruct (Z.eqb reason DLL_PROCESS_ATTACH); [reflexivity|].
  destruct (Z.eqb reason DLL_THREAD_ATTACH); [reflexivity|].
  destruct (Z.eqb reason DLL_THREAD_DETACH); [reflexivity|].
  destruct (Z.eqb reason DLL_PROCESS_DETACH); reflexivity.
Qed.

(** X10.  Whatever the loader tells the module, and however often,
    [DllMain] answers [TRUE] every time, also for a reason that is none of
    the four it names, and calls nothing of the hosting API: a call of the
    entry point after any run of notifications does what it does without
    them. *)
Theorem DllMain_accepts_and_leaves_no_trace pid instance reserved reasons h :
  notifications pid instance reserved reasons h =
    (Ret (map (fun _ => TRUE) reasons), []) /\
  forall P adapterDllArg,
    (_ <- notifications pid instance reserved reasons ;;
     AdapterEntryPoint P adapterDllArg) h =
    AdapterEntryPoint P adapterDllArg h.
Proof.
  assert (Hrun : forall h',
            notifications pid instance reserved reasons h' =
            (Ret (map (fun _ => TRUE) reasons), [])).
  { induction reasons as [|reason later IH]; intro h'; [reflexivity|].
    cbn [notifications map]. unfold bind at 1.
    rewrite DllMain_run. unfold bind at 1. rewrite IH. reflexivity. }
  split; [apply Hrun|].
  intros P adapterDllArg. unfold bind. rewrite Hrun, app_nil_r.
  now destruct (AdapterEntryPoint P adapterDllArg h).
Qed.
